(** * MemoryRetriever: a shallow embedding of
      haystack/preview/components/retrievers/memory.py

    The component is a thin adapter around a document store: it keeps three
    default query parameters, fans a batch of queries out to the store's
    BM25 retrieval and serialises its own configuration.  Python values
    are embedded dynamically (one universe [pyval]); exceptions are a
    value of type [exn]; the calls made to the store are recorded in a
    log that the [Eff] monad threads through [run]. *)

From Stdlib Require Import ZArith List String Ascii Bool Lia.
From Stdlib Require Import DecimalString.
Import ListNotations.
Set Warnings "-register-all".
Local Open Scope string_scope.
Local Open Scope Z_scope.
Local Open Scope list_scope.

(** ** Python values *)

(** The fragment of Python's value universe that serialised component
    data is made of.  A dict with string keys is an association list in
    insertion order, its keys pairwise distinct. *)
Inductive pyval : Type :=
| PNone
| PBool (b : bool)
| PInt (z : Z)
| PStr (s : string)
| PList (items : list pyval)
| PDict (entries : list (string * pyval)).

Definition pydict : Type := list (string * pyval).

(** [d.get(k)] on an association list. *)
Fixpoint lookup {V : Type} (k : string) (d : list (string * V)) : option V :=
  match d with
  | [] => None
  | (k', v) :: rest => if String.eqb k k' then Some v else lookup k rest
  end.

(** [v is None] *)
Definition is_None (v : pyval) : bool :=
  match v with PNone => true | _ => false end.

(** [str(n)] for an int. *)
Definition py_str_int (z : Z) : string :=
  NilZero.string_of_int (Z.to_int z).

(** [needle in haystack] for strings. *)
Fixpoint contains (needle haystack : string) : bool :=
  if String.prefix needle haystack then true
  else match haystack with
       | EmptyString => false
       | String _ rest => contains needle rest
       end.

(** ** Exceptions *)

(** What a [TypeError] raised on the paths below is about. *)
Inductive type_error : Type :=
| NotOrderable (v : pyval)        (* [v <= 0] on a value that is no number *)
| NotAMapping (v : pyval)         (* [cls( **v )] on a value that is no dict *)
| BadKeyword (k : string)         (* a keyword [__init__] does not take *)
| Unhashable (v : pyval).         (* a list or dict used as a dict key *)

(** What a [ComponentDeserializationError] is about. *)
Inductive deserialization_error : Type :=
| MissingType
| WrongType (found : pyval) (expected : string).

(** A number as [<=] and an f-string see it: an int, or a bool (a
    subclass of int that prints as [True] / [False]). *)
Inductive pynum : Type :=
| NInt (z : Z)
| NBool (b : bool).

Definition as_number (v : pyval) : option pynum :=
  match v with
  | PInt z => Some (NInt z)
  | PBool b => Some (NBool b)
  | _ => None
  end.

Definition num_value (n : pynum) : Z :=
  match n with
  | NInt z => z
  | NBool b => Z.b2z b
  end.

Definition num_str (n : pynum) : string :=
  match n with
  | NInt z => py_str_int z
  | NBool true => "True"
  | NBool false => "False"
  end.

(** [bool(s)] for a [str] attribute that may also be unset. *)
Definition truthy_name (name : option string) : bool :=
  match name with
  | Some s => negb (String.eqb s "")
  | None => false
  end.

(** The attribute as a Python value. *)
Definition py_of_name (name : option string) : pyval :=
  match name with
  | Some s => PStr s
  | None => PNone
  end.

(** One call of the store's [bm25_retrieval], as the store receives it. *)
Record bm25_call : Type := {
  call_query : string;
  call_filters : pyval;
  call_top_k : pyval;
  call_scale_score : pyval
}.

Section Retriever.

(** Documents are produced by the store and never inspected here;
    [StoreExn] is whatever the store collaborator raises. *)
Variable Document : Type.
Variable StoreExn : Type.

Inductive exn : Type :=
| ValueError (msg : string)
| TypeError (what : type_error)
| KeyError (key : pyval)
| ComponentDeserializationError (what : deserialization_error)
| Delegated (e : StoreExn).

Inductive outcome (A : Type) : Type :=
| Return (a : A)
| Raise (e : exn).
Arguments Return {A} a.
Arguments Raise {A} e.

Definition bind {A B : Type} (m : outcome A) (k : A -> outcome B) : outcome B :=
  match m with
  | Return a => k a
  | Raise e => Raise e
  end.

Notation "x <- m ;; k" := (bind m (fun x => k))
  (at level 61, m at next level, right associativity).

(** ** The store collaborator *)

(** Modelled from the spec: the store capability interface (section 6)
    is not part of this file's sources.  A store offers
    [bm25_retrieval(query, filters, top_k, scale_score)], returning an
    ordered sequence of scored documents or raising, and [to_dict()];
    retrieval does not mutate the store.  The interface defines neither
    [__bool__] nor [__len__], so a store object is truthy.
    [store_class] is [type(store).__name__]. *)
Record Store : Type := {
  store_class : string;
  bm25_retrieval : string -> pyval -> pyval -> pyval -> StoreExn + list Document;
  store_to_dict : pyval
}.

(** Modelled from the spec: [store.registry], the store-type registry
    keyed by type name; an entry is the class's [from_dict]. *)
Definition Registry : Type := list (string * (pyval -> StoreExn + Store)).

(** ** The component *)

(** [obj_id] is [id(self)]; [_store] and [_store_name] are the two slots
    of [StoreAwareMixin]. *)
Record MemoryRetriever : Type := {
  obj_id : Z;
  self_filters : pyval;
  self_top_k : pyval;
  self_scale_score : pyval;
  _store : option Store;
  _store_name : option string
}.

Definition class_name : string := "MemoryRetriever".

Definition supported_stores : list string := ["MemoryDocumentStore"].

(** [MemoryRetriever.__init__]; an argument that the caller leaves out
    is [None] here and takes the default of the signature.  [self_id] is
    the identity of the object being initialised; the two slots of the
    mixin start unset. *)
Definition __init__ (self_id : Z) (filters top_k scale_score : option pyval)
  : outcome MemoryRetriever :=
  let filters := match filters with Some v => v | None => PNone end in
  let top_k := match top_k with Some v => v | None => PInt 10 end in
  let scale_score := match scale_score with Some v => v | None => PBool true end in
  match as_number top_k with
  | None => Raise (TypeError (NotOrderable top_k))
  | Some n =>
      if num_value n <=? 0
      then Raise (ValueError ("top_k must be > 0, but got " ++ num_str n)%string)
      else Return {| obj_id := self_id;
                     self_filters := filters;
                     self_top_k := top_k;
                     self_scale_score := scale_score;
                     _store := None;
                     _store_name := None |}
  end.

(** Modelled from the spec: the setter of [StoreAwareMixin.store], which
    is not part of this file's sources.  "Assigning an incompatible store
    object fails with an invalid-argument error naming the
    incompatibility"; compatibility is membership of the store's class in
    [supported_stores]. *)
Definition set_store (self : MemoryRetriever) (store : Store)
  : outcome MemoryRetriever :=
  if existsb (String.eqb (store_class store)) supported_stores
  then Return {| obj_id := obj_id self;
                 self_filters := self_filters self;
                 self_top_k := self_top_k self;
                 self_scale_score := self_scale_score self;
                 _store := Some store;
                 _store_name := _store_name self |}
  else Raise (ValueError ("Store type '" ++ store_class store
                          ++ "' is not compatible with this component.")%string).

(** [MemoryRetriever.to_dict] *)
Definition to_dict (self : MemoryRetriever) : pydict :=
  let store := PNone in
  let store := match _store self with
               | Some s => store_to_dict s
               | None => store
               end in
  let store := if truthy_name (_store_name self)
               then py_of_name (_store_name self)
               else store in
  [ ("hash", PInt (obj_id self));
    ("type", PStr class_name);
    ("store", store);
    ("init_parameters",
      PDict [ ("filters", self_filters self);
              ("top_k", self_top_k self);
              ("scale_score", self_scale_score self) ]) ].

(** [data[key]] on a dict. *)
Definition getitem (d : pydict) (key : string) : outcome pyval :=
  match lookup key d with
  | Some v => Return v
  | None => Raise (KeyError (PStr key))
  end.

(** [store.registry[store_type]] *)
Definition registry_getitem (registry : Registry) (store_type : pyval)
  : outcome (pyval -> StoreExn + Store) :=
  match store_type with
  | PStr name =>
      match lookup name registry with
      | Some from => Return from
      | None => Raise (KeyError store_type)
      end
  | PList _ | PDict _ => Raise (TypeError (Unhashable store_type))
  | _ => Raise (KeyError store_type)
  end.

(** A call into the store collaborator: what it raises propagates. *)
Definition delegate {A : Type} (r : StoreExn + A) : outcome A :=
  match r with
  | inr a => Return a
  | inl e => Raise (Delegated e)
  end.

Definition init_keywords : list string := ["filters"; "top_k"; "scale_score"].

(** [cls( **init_params )] *)
Definition construct (new_id : Z) (init_params : pyval) : outcome MemoryRetriever :=
  match init_params with
  | PDict kwargs =>
      match find (fun kv => negb (existsb (String.eqb (fst kv)) init_keywords)) kwargs with
      | Some (k, _) => Raise (TypeError (BadKeyword k))
      | None => __init__ new_id (lookup "filters" kwargs)
                                (lookup "top_k" kwargs)
                                (lookup "scale_score" kwargs)
      end
  | v => Raise (TypeError (NotAMapping v))
  end.

(** [data["type"] != cls.__name__] *)
Definition differs_from_name (v : pyval) (name : string) : bool :=
  match v with
  | PStr s => negb (String.eqb s name)
  | _ => true
  end.

(** [MemoryRetriever.from_dict]; [new_id] is the identity of the object
    that [cls(...)] allocates. *)
Definition from_dict (registry : Registry) (new_id : Z) (data : pydict)
  : outcome MemoryRetriever :=
  match lookup "type" data with
  | None => Raise (ComponentDeserializationError MissingType)
  | Some ty =>
      if differs_from_name ty class_name
      then Raise (ComponentDeserializationError (WrongType ty class_name))
      else
        init_params <- getitem data "init_parameters" ;;
        comp <- construct new_id init_params ;;
        store_field <- getitem data "store" ;;
        match store_field with
        | PDict store_data =>
            store_type <- getitem store_data "type" ;;
            from <- registry_getitem registry store_type ;;
            store <- delegate (from store_field) ;;
            set_store comp store
        | _ => Return comp
        end
  end.

(** ** Running the retriever *)

(** Computations that call the store: an outcome, and the log of the
    retrieval calls made so far. *)
Definition Eff (A : Type) : Type := list bm25_call -> outcome A * list bm25_call.

Definition ret {A : Type} (a : A) : Eff A := fun log => (Return a, log).

Definition raise {A : Type} (e : exn) : Eff A := fun log => (Raise e, log).

Definition ebind {A B : Type} (m : Eff A) (k : A -> Eff B) : Eff B :=
  fun log =>
    match m log with
    | (Return a, log') => k a log'
    | (Raise e, log') => (Raise e, log')
    end.

Notation "x <~ m ;; k" := (ebind m (fun x => k))
  (at level 61, m at next level, right associativity).

(** [store.bm25_retrieval(query=..., filters=..., top_k=..., scale_score=...)] *)
Definition call_bm25 (store : Store) (query : string)
    (filters top_k scale_score : pyval) : Eff (list Document) :=
  fun log =>
    (delegate (bm25_retrieval store query filters top_k scale_score),
     log ++ [ {| call_query := query;
                 call_filters := filters;
                 call_top_k := top_k;
                 call_scale_score := scale_score |} ]).

(** The loop [for query in queries: docs.append(...)]. *)
Fixpoint for_each_query (store : Store) (filters top_k scale_score : pyval)
    (queries : list string) (docs : list (list Document))
  : Eff (list (list Document)) :=
  match queries with
  | [] => ret docs
  | query :: rest =>
      found <~ call_bm25 store query filters top_k scale_score ;;
      for_each_query store filters top_k scale_score rest (docs ++ [found])
  end.

(** The dict [{"documents": docs}] that [run] returns. *)
Record run_output : Type := { documents : list (list Document) }.

(** [MemoryRetriever.run]; an override that the caller leaves out is
    [PNone], the default of the signature. *)
Definition run (self : MemoryRetriever) (queries : list string)
    (filters top_k scale_score : pyval) : Eff run_output :=
  match _store self with
  | None =>
      raise (ValueError
        "MemoryRetriever needs a store to run: set the store instance to the self.store attribute")
  | Some store =>
      let filters := if is_None filters then self_filters self else filters in
      let top_k := if is_None top_k then self_top_k self else top_k in
      let scale_score := if is_None scale_score then self_scale_score self
                         else scale_score in
      docs <~ for_each_query store filters top_k scale_score queries [] ;;
      ret {| documents := docs |}
  end.

End Retriever.

Arguments ValueError {StoreExn} msg.
Arguments TypeError {StoreExn} what.
Arguments KeyError {StoreExn} key.
Arguments ComponentDeserializationError {StoreExn} what.
Arguments Delegated {StoreExn} e.
Arguments Return {StoreExn A} a.
Arguments Raise {StoreExn A} e.
Arguments bind {StoreExn A B} m k.
Arguments delegate {StoreExn A} r.
Arguments store_class {Document StoreExn} s.
Arguments bm25_retrieval {Document StoreExn} s query filters top_k scale_score.
Arguments store_to_dict {Document StoreExn} s.
Arguments obj_id {Document StoreExn} m.
Arguments self_filters {Document StoreExn} m.
Arguments self_top_k {Document StoreExn} m.
Arguments self_scale_score {Document StoreExn} m.
Arguments _store {Document StoreExn} m.
Arguments _store_name {Document StoreExn} m.
Arguments __init__ {Document StoreExn} self_id filters top_k scale_score.
Arguments set_store {Document StoreExn} self store.
Arguments to_dict {Document StoreExn} self.
Arguments getitem {StoreExn} d key.
Arguments registry_getitem {Document StoreExn} registry store_type.
Arguments construct {Document StoreExn} new_id init_params.
Arguments from_dict {Document StoreExn} registry new_id data.
Arguments ret {StoreExn A} a log.
Arguments raise {StoreExn A} e log.
Arguments ebind {StoreExn A B} m k log.
Arguments call_bm25 {Document StoreExn} store query filters top_k scale_score log.
Arguments for_each_query {Document StoreExn} store filters top_k scale_score queries docs log.
Arguments documents {Document} r.
Arguments run {Document StoreExn} self queries filters top_k scale_score log.

(** ** A small store for the examples *)

(** Five documents, as in the repository's tests. *)
Definition corpus : list string :=
  [ "Javascript is a popular programming language";
    "Java is a popular programming language";
    "Python is a popular programming language";
    "Ruby is a popular programming language";
    "PHP is a popular programming language" ].

(** A stand-in for a ranking: the documents that mention the query, cut
    to [top_k] when that is an int; an empty query is refused. *)
Definition demo_retrieval (query : string) (filters top_k scale_score : pyval)
  : string + list string :=
  if String.eqb query "" then inl "Query should be a non-empty string"
  else let hits := filter (contains query) corpus in
       inr (match top_k with
            | PInt k => firstn (Z.to_nat k) hits
            | _ => hits
            end).

Definition demo_store_data : pyval :=
  PDict [ ("type", PStr "MemoryDocumentStore"); ("init_parameters", PDict []) ].

Definition demo_store : Store string string :=
  {| store_class := "MemoryDocumentStore";
     bm25_retrieval := demo_retrieval;
     store_to_dict := demo_store_data |}.

Definition demo_registry : Registry string string :=
  [ ("MemoryDocumentStore", fun _ => inr demo_store) ].

(** [MemoryRetriever(top_k=5)], not yet bound to a store. *)
Definition demo_unbound : MemoryRetriever string string :=
  {| obj_id := 4096;
     self_filters := PNone;
     self_top_k := PInt 5;
     self_scale_score := PBool true;
     _store := None;
     _store_name := None |}.

(** The same component after [retriever.store = ds]. *)
Definition demo_bound : MemoryRetriever string string :=
  {| obj_id := 4096;
     self_filters := PNone;
     self_top_k := PInt 5;
     self_scale_score := PBool true;
     _store := Some demo_store;
     _store_name := None |}.

(** The same component after
    [pipeline.add_component("retriever", retriever, store="memory")]:
    the store is bound and its name in the pipeline is recorded. *)
Definition demo_in_pipeline : MemoryRetriever string string :=
  {| obj_id := 4096;
     self_filters := PNone;
     self_top_k := PInt 5;
     self_scale_score := PBool true;
     _store := Some demo_store;
     _store_name := Some "memory" |}.

(** ** Reading the call log *)

(** The call [c] reached the store with these three parameters. *)
Definition sent_with (filters top_k scale_score : pyval) (c : bm25_call) : Prop :=
  call_filters c = filters /\ call_top_k c = top_k
  /\ call_scale_score c = scale_score.

(** ** Comparing components and stores *)

Section Comparing.

Variable Document : Type.
Variable StoreExn : Type.

(** Two components have the same defaults. *)
Definition same_defaults (a b : MemoryRetriever Document StoreExn) : Prop :=
  self_filters a = self_filters b
  /\ self_top_k a = self_top_k b
  /\ self_scale_score a = self_scale_score b.

(** Two stores answer every retrieval alike: the same documents, in the
    same order, for the same query and parameters. *)
Definition same_results (s1 s2 : Store Document StoreExn) : Prop :=
  forall (query : string) (filters top_k scale_score : pyval),
    bm25_retrieval s1 query filters top_k scale_score
    = bm25_retrieval s2 query filters top_k scale_score.

(** The round trip as the specification words it: [from_dict] of
    [to_dict x] yields a component with the defaults of [x] and, when
    [x] has a store bound, with a store bound that answers alike. *)
Definition round_trips (registry : Registry Document StoreExn) (new_id : Z)
    (x : MemoryRetriever Document StoreExn) : Prop :=
  exists y,
    from_dict registry new_id (to_dict x) = Return y
    /\ same_defaults x y
    /\ forall s, _store x = Some s ->
         exists s', _store y = Some s' /\ same_results s s'.

End Comparing.

Arguments same_defaults {Document StoreExn} a b.
Arguments same_results {Document StoreExn} s1 s2.
Arguments round_trips {Document StoreExn} registry new_id x.

(** ** Vocabulary for the properties of the loop and of the constructor *)

(** The call that [run] logs for [query] under the given parameters. *)
Definition call_with (filters top_k scale_score : pyval) (query : string)
  : bm25_call :=
  {| call_query := query;
     call_filters := filters;
     call_top_k := top_k;
     call_scale_score := scale_score |}.

(** A per-call override against the attribute of the instance. *)
Definition effective (override attribute : pyval) : pyval :=
  if is_None override then attribute else override.

(** A keyword argument as the body of a function sees it. *)
Definition or_default (default : pyval) (given : option pyval) : pyval :=
  match given with
  | Some v => v
  | None => default
  end.

(** Every key of [kwargs] is a keyword of [__init__]. *)
Definition only_init_keywords (kwargs : pydict) : bool :=
  forallb (fun kv => existsb (String.eqb (fst kv)) init_keywords) kwargs.

(** [isinstance(v, dict)] *)
Definition is_dict (v : pyval) : bool :=
  match v with PDict _ => true | _ => false end.

(** The constructor accepts the [top_k] of [kwargs], or the default
    when there is none: it is a number above 0. *)
Definition top_k_accepted (kwargs : pydict) : bool :=
  match as_number (or_default (PInt 10) (lookup "top_k" kwargs)) with
  | Some n => negb (num_value n <=? 0)
  | None => false
  end.

(** A registry whose entry for the in-memory store refuses every
    record. *)
Definition broken_registry : Registry string string :=
  [ ("MemoryDocumentStore", fun _ => inl "Missing 'init_parameters' in store data") ].

(** * Properties *)

(** ** Strings *)

Lemma prefix_refl (s : string) : String.prefix s s = true.
Proof.
  induction s as [|a s IH]; simpl; [reflexivity|].
  destruct (ascii_dec a a) as [_|ne]; [exact IH | contradiction].
Qed.

Lemma contains_app (needle before : string) :
  contains needle (before ++ needle)%string = true.
Proof.
  induction before as [|c before IH].
  - change (("" ++ needle)%string) with needle.
    destruct needle as [|a needle]; [reflexivity|].
    unfold contains; fold contains.
    now rewrite prefix_refl.
  - cbn [append]. cbn [contains].
    rewrite IH; now destruct (String.prefix _ _).
Qed.

(** ** Construction *)

Section Construction.

Variable Document : Type.
Variable StoreExn : Type.

(** C4.  For every integer [top_k <= 0] construction fails with a
    [ValueError] whose message contains [str(top_k)]; for every
    [top_k > 0] construction succeeds and the new instance keeps that
    value as its default. *)
Theorem init_validates_top_k :
  forall (self_id : Z) (filters scale_score : option pyval) (k : Z),
    (k <= 0 ->
       exists msg,
         @__init__ Document StoreExn self_id filters (Some (PInt k)) scale_score
           = Raise (ValueError msg)
         /\ msg = ("top_k must be > 0, but got " ++ py_str_int k)%string
         /\ contains (py_str_int k) msg = true)
    /\ (0 < k ->
       exists r,
         @__init__ Document StoreExn self_id filters (Some (PInt k)) scale_score
           = Return r
         /\ self_top_k r = PInt k).
Proof.
  intros self_id filters scale_score k; split; intros Hk.
  - exists ("top_k must be > 0, but got " ++ py_str_int k)%string.
    repeat split.
    + unfold __init__; simpl.
      destruct (Z.leb_spec k 0) as [_|Hgt]; [reflexivity | lia].
    + apply contains_app.
  - unfold __init__; simpl.
    destruct (Z.leb_spec k 0) as [Hle|_]; [lia|].
    eexists; split; reflexivity.
Qed.

(** C8, as the code has it.  Constructed without a [filters] argument,
    the instance keeps [None] as its default filters. *)
Theorem init_default_filters_is_None :
  forall (self_id : Z) (top_k scale_score : option pyval)
         (r : MemoryRetriever Document StoreExn),
    __init__ self_id None top_k scale_score = Return r ->
    self_filters r = PNone.
Proof.
  intros self_id top_k scale_score r.
  unfold __init__.
  destruct (as_number _) as [n|]; [|discriminate].
  destruct (num_value n <=? 0); [discriminate|].
  intros H; injection H as <-; reflexivity.
Qed.

End Construction.

(** ** The retrieval loop *)

Section Running.

Variable Document : Type.
Variable StoreExn : Type.
Variable store : Store Document StoreExn.
Variables filters top_k scale_score : pyval.

(** When the store answers every query, the loop appends the answers to
    [docs] in the order of the queries. *)
Lemma for_each_query_answers :
  forall (queries : list string) (answers : list (list Document)),
    Forall2 (fun q d => bm25_retrieval store q filters top_k scale_score = inr d)
            queries answers ->
    forall docs log,
      fst (for_each_query store filters top_k scale_score queries docs log)
      = Return (docs ++ answers).
Proof.
  induction 1 as [|q d queries answers Hq _ IH]; intros docs log.
  - simpl. now rewrite app_nil_r.
  - simpl. unfold ebind, call_bm25. rewrite Hq. simpl.
    rewrite IH. now rewrite <- app_assoc.
Qed.

(** The loop calls the store once per query, in order, until a call
    raises; every call carries the loop's parameters. *)
Lemma for_each_query_calls :
  forall (queries : list string) docs log,
    exists (calls : list bm25_call) (n : nat),
      snd (for_each_query store filters top_k scale_score queries docs log)
      = log ++ calls
      /\ map call_query calls = firstn n queries
      /\ (queries <> [] -> calls <> [])
      /\ Forall (sent_with filters top_k scale_score) calls
      /\ (forall out,
            fst (for_each_query store filters top_k scale_score queries docs log)
            = Return out -> n = List.length queries).
Proof.
  induction queries as [|q queries IH]; intros docs log.
  - exists [], 0%nat. simpl. rewrite app_nil_r.
    repeat split; auto; congruence.
  - simpl. unfold ebind, call_bm25.
    destruct (bm25_retrieval store q filters top_k scale_score) as [e|d]; simpl.
    + exists [ {| call_query := q; call_filters := filters;
                  call_top_k := top_k; call_scale_score := scale_score |} ], 1%nat.
      repeat split; try discriminate.
      repeat constructor.
    + destruct (IH (docs ++ [d])
                   (log ++ [ {| call_query := q; call_filters := filters;
                                call_top_k := top_k;
                                call_scale_score := scale_score |} ]))
        as (calls & n & Hlog & Hq & _ & Hsent & Hn).
      exists ({| call_query := q; call_filters := filters;
                 call_top_k := top_k; call_scale_score := scale_score |} :: calls),
             (S n).
      repeat split.
      * rewrite Hlog, <- app_assoc. reflexivity.
      * simpl. now rewrite Hq.
      * discriminate.
      * constructor; [repeat split | exact Hsent].
      * intros out Hout. f_equal. eapply Hn, Hout.
Qed.

(** The only exception the loop lets out is one the store raised. *)
Lemma for_each_query_raises :
  forall (queries : list string) docs log e,
    fst (for_each_query store filters top_k scale_score queries docs log)
    = Raise e ->
    exists q e', In q queries /\ e = Delegated e'
                 /\ bm25_retrieval store q filters top_k scale_score = inl e'.
Proof.
  induction queries as [|q queries IH]; intros docs log e; simpl.
  - discriminate.
  - unfold ebind, call_bm25.
    destruct (bm25_retrieval store q filters top_k scale_score) as [e'|d] eqn:Hq;
      simpl.
    + intros H; injection H as <-. exists q, e'. auto.
    + intros H. destruct (IH _ _ _ H) as (q' & e' & Hin & He & Hq').
      exists q', e'. auto.
Qed.

End Running.

(** ** [run] *)

Section Run.

Variable Document : Type.
Variable StoreExn : Type.

(** C1.  With a store bound, when the store answers each query [q_i]
    (under the effective filters, top_k and scale_score) with a
    sequence [d_i], [run] returns a record whose [documents] are exactly
    [d_1 .. d_n]: as many lists as queries, the i-th one being the
    store's answer to the i-th query, untouched. *)
Theorem run_collects_store_answers_in_order :
  forall (self : MemoryRetriever Document StoreExn) (store : Store Document StoreExn)
         (queries : list string) (filters top_k scale_score : pyval)
         (log : list bm25_call) (answers : list (list Document)),
    _store self = Some store ->
    Forall2 (fun q d =>
               bm25_retrieval store q
                 (if is_None filters then self_filters self else filters)
                 (if is_None top_k then self_top_k self else top_k)
                 (if is_None scale_score then self_scale_score self else scale_score)
               = inr d)
            queries answers ->
    exists out,
      fst (run self queries filters top_k scale_score log) = Return out
      /\ documents out = answers
      /\ List.length (documents out) = List.length queries
      /\ forall (i : nat) (q : string),
           nth_error queries i = Some q ->
           exists d,
             nth_error (documents out) i = Some d
             /\ bm25_retrieval store q
                  (if is_None filters then self_filters self else filters)
                  (if is_None top_k then self_top_k self else top_k)
                  (if is_None scale_score then self_scale_score self else scale_score)
                = inr d.
Proof.
  intros self store queries filters top_k scale_score log answers Hbound Hans.
  exists {| documents := answers |}.
  split; [|split; [reflexivity|split]].
  - unfold run. rewrite Hbound. unfold ebind.
    pose proof (for_each_query_answers _ _ _ _ _ _ _ _ Hans [] log) as Hloop.
    destruct (for_each_query _ _ _ _ _ _ _) as [[docs|e] log'];
      simpl in Hloop; [|discriminate].
    injection Hloop as ->. reflexivity.
  - simpl. symmetry. eapply Forall2_length, Hans.
  - simpl. clear Hbound. induction Hans as [|q0 d0 qs ds Hq0 _ IH]; intros i q Hi.
    + destruct i; discriminate.
    + destruct i as [|i]; simpl in *.
      * injection Hi as <-. exists d0. auto.
      * apply IH, Hi.
Qed.

(** C3.  With a store bound, every retrieval call that [run] makes
    carries, for each of filters, top_k and scale_score, the value given
    in the call when that is not [None], and the instance's own default
    when it is; the calls are one per query, in order, and there is at
    least one when there is a query. *)
Theorem run_overrides_take_precedence :
  forall (self : MemoryRetriever Document StoreExn) (store : Store Document StoreExn)
         (queries : list string) (filters top_k scale_score : pyval)
         (log : list bm25_call),
    _store self = Some store ->
    exists (calls : list bm25_call) (n : nat),
      snd (run self queries filters top_k scale_score log) = log ++ calls
      /\ map call_query calls = firstn n queries
      /\ (queries <> [] -> calls <> [])
      /\ (forall out, fst (run self queries filters top_k scale_score log)
                      = Return out -> n = List.length queries)
      /\ forall c, In c calls ->
           (filters <> PNone -> call_filters c = filters)
           /\ (filters = PNone -> call_filters c = self_filters self)
           /\ (top_k <> PNone -> call_top_k c = top_k)
           /\ (top_k = PNone -> call_top_k c = self_top_k self)
           /\ (scale_score <> PNone -> call_scale_score c = scale_score)
           /\ (scale_score = PNone -> call_scale_score c = self_scale_score self).
Proof.
  intros self store queries filters top_k scale_score log Hbound.
  unfold run. rewrite Hbound. unfold ebind.
  destruct (for_each_query_calls _ _ store
              (if is_None filters then self_filters self else filters)
              (if is_None top_k then self_top_k self else top_k)
              (if is_None scale_score then self_scale_score self else scale_score)
              queries [] log)
    as (calls & n & Hlog & Hq & Hne & Hsent & Hn).
  exists calls, n.
  destruct (for_each_query _ _ _ _ _ _ _) as [[docs|e] log'];
    simpl in Hlog; subst log'; simpl.
  all: repeat split; auto; try discriminate.
  all: try (intros out _; now apply (Hn docs)).
  all: rewrite Forall_forall in Hsent;
    destruct (Hsent c H) as (Hf & Hk & Hs);
    try rewrite Hf; try rewrite Hk; try rewrite Hs;
    intros Hv; subst; try reflexivity.
  all: match goal with
       | Hv : ?v <> PNone |- _ => destruct v; try reflexivity; contradiction
       end.
Qed.

(** C5.  With no store bound, [run] raises a [ValueError] that tells
    the caller to set the store, and the call log is left as it was:
    no retrieval is made. *)
Theorem run_without_store_fails :
  forall (self : MemoryRetriever Document StoreExn)
         (queries : list string) (filters top_k scale_score : pyval)
         (log : list bm25_call),
    _store self = None ->
    exists msg,
      run self queries filters top_k scale_score log = (Raise (ValueError msg), log)
      /\ msg = "MemoryRetriever needs a store to run: set the store instance to the self.store attribute"
      /\ contains "set the store instance" msg = true.
Proof.
  intros self queries filters top_k scale_score log Hnone.
  unfold run. rewrite Hnone. eexists. repeat split.
Qed.

(** C9.  With a store bound, an integer [top_k] given to [run] is not
    checked, whatever its sign: [run] raises no [ValueError], the only
    exception it can let out is one raised by the store, every call it
    makes carries that very [top_k], and when the store answers every
    query [run] returns the answers. *)
Theorem run_does_not_validate_top_k :
  forall (self : MemoryRetriever Document StoreExn) (store : Store Document StoreExn)
         (queries : list string) (filters scale_score : pyval) (k : Z)
         (log : list bm25_call),
    _store self = Some store ->
    (forall msg,
       fst (run self queries filters (PInt k) scale_score log)
       <> Raise (ValueError msg))
    /\ (forall e,
          fst (run self queries filters (PInt k) scale_score log) = Raise e ->
          exists q e', In q queries /\ e = Delegated e'
            /\ bm25_retrieval store q
                 (if is_None filters then self_filters self else filters)
                 (PInt k)
                 (if is_None scale_score then self_scale_score self else scale_score)
               = inl e')
    /\ (exists (calls : list bm25_call) (n : nat),
          snd (run self queries filters (PInt k) scale_score log) = log ++ calls
          /\ map call_query calls = firstn n queries
          /\ (queries <> [] -> calls <> [])
          /\ Forall (fun c => call_top_k c = PInt k) calls)
    /\ (forall answers,
          Forall2 (fun q d =>
                     bm25_retrieval store q
                       (if is_None filters then self_filters self else filters)
                       (PInt k)
                       (if is_None scale_score then self_scale_score self
                        else scale_score)
                     = inr d)
                  queries answers ->
          fst (run self queries filters (PInt k) scale_score log)
          = Return {| documents := answers |}).
Proof.
  intros self store queries filters scale_score k log Hbound.
  assert (Hraise : forall e,
            fst (run self queries filters (PInt k) scale_score log) = Raise e ->
            exists q e', In q queries /\ e = Delegated e'
              /\ bm25_retrieval store q
                   (if is_None filters then self_filters self else filters)
                   (PInt k)
                   (if is_None scale_score then self_scale_score self
                    else scale_score)
                 = inl e').
  { intros e. unfold run. rewrite Hbound. unfold ebind. simpl.
    destruct (for_each_query _ _ _ _ _ _ _) as [[docs|e0] log'] eqn:Hloop;
      simpl; [discriminate|].
    intros H; injection H as <-.
    eapply for_each_query_raises with (docs := []) (log := log).
    rewrite Hloop. reflexivity. }
  split; [|split; [exact Hraise|split]].
  - intros msg H. destruct (Hraise _ H) as (_ & e' & _ & He & _). discriminate.
  - unfold run. rewrite Hbound. unfold ebind. simpl.
    destruct (for_each_query_calls _ _ store
                (if is_None filters then self_filters self else filters)
                (PInt k)
                (if is_None scale_score then self_scale_score self else scale_score)
                queries [] log)
      as (calls & n & Hlog & Hq & Hne & Hsent & _).
    exists calls, n.
    destruct (for_each_query _ _ _ _ _ _ _) as [[docs|e] log'];
      simpl in Hlog; subst log'; simpl.
    all: repeat split; auto.
    all: eapply Forall_impl; [|exact Hsent]; intros c (_ & Hk & _); exact Hk.
  - intros answers Hans. unfold run. rewrite Hbound. unfold ebind. simpl.
    pose proof (for_each_query_answers _ _ _ _ _ _ _ _ Hans [] log) as Hloop.
    destruct (for_each_query _ _ _ _ _ _ _) as [[docs|e] log'];
      simpl in Hloop; [|discriminate].
    injection Hloop as ->. reflexivity.
Qed.

(** C10.  With a store bound, [run] on the empty list of queries
    returns the record whose [documents] is the empty list and makes no
    retrieval call. *)
Theorem run_on_no_queries :
  forall (self : MemoryRetriever Document StoreExn) (store : Store Document StoreExn)
         (filters top_k scale_score : pyval) (log : list bm25_call),
    _store self = Some store ->
    run self [] filters top_k scale_score log
    = (Return {| documents := [] |}, log).
Proof.
  intros self store filters top_k scale_score log Hbound.
  unfold run. rewrite Hbound. reflexivity.
Qed.

End Run.

(** ** Serialisation *)

Section Serialisation.

Variable Document : Type.
Variable StoreExn : Type.

Lemma differs_from_name_false (v : pyval) (name : string) :
  differs_from_name v name = false <-> v = PStr name.
Proof.
  destruct v; simpl; split; try discriminate.
  - intros H. apply negb_false_iff, String.eqb_eq in H. now subst.
  - intros H; injection H as ->. now rewrite String.eqb_refl.
Qed.

(** The constructor raises no deserialization error. *)
Lemma construct_raises (new_id : Z) (init_params : pyval) (e : exn StoreExn) :
  @construct Document StoreExn new_id init_params = Raise e ->
  (exists msg, e = ValueError msg) \/ (exists what, e = TypeError what).
Proof.
  unfold construct, __init__.
  destruct init_params; try (intros H; injection H as <-; eauto).
  destruct (find _ _) as [[k v]|]; [intros H; injection H as <-; eauto|].
  destruct (as_number _); [|intros H; injection H as <-; eauto].
  destruct (num_value _ <=? 0); [|discriminate].
  intros H; injection H as <-; eauto.
Qed.

(** C6, as the code has it.  The [store] field of [to_dict] is the
    store name when a non-empty name is recorded, whether or not a store
    is bound; without a name it is the store's serialised form when a
    store is bound, and [None] otherwise. *)
Theorem to_dict_store_field :
  forall (self : MemoryRetriever Document StoreExn),
    (forall name, _store_name self = Some name -> name <> "" ->
       lookup "store" (to_dict self) = Some (PStr name))
    /\ (forall s, truthy_name (_store_name self) = false ->
          _store self = Some s ->
          lookup "store" (to_dict self) = Some (store_to_dict s))
    /\ (truthy_name (_store_name self) = false ->
          _store self = None ->
          lookup "store" (to_dict self) = Some PNone).
Proof.
  intros self. unfold to_dict. simpl. repeat split.
  - intros name Hname Hne. rewrite Hname. simpl.
    destruct (String.eqb_spec name ""); [contradiction | reflexivity].
  - intros s Hfalse Hs. now rewrite Hfalse, Hs.
  - intros Hfalse Hs. now rewrite Hfalse, Hs.
Qed.

(** C7.  [from_dict] raises a [ComponentDeserializationError] exactly
    when the [type] entry is missing or is not the class name. *)
Theorem from_dict_type_check :
  forall (registry : Registry Document StoreExn) (new_id : Z) (data : pydict),
    (exists what,
       from_dict registry new_id data = Raise (ComponentDeserializationError what))
    <-> (lookup "type" data = None
         \/ exists ty, lookup "type" data = Some ty /\ ty <> PStr class_name).
Proof.
  intros registry new_id data. unfold from_dict.
  destruct (lookup "type" data) as [ty|]; [|split; eauto].
  destruct (differs_from_name ty class_name) eqn:Hty.
  - split; [intros _; right; exists ty; split; [reflexivity|] | eauto].
    intros Heq. apply differs_from_name_false in Heq. congruence.
  - apply differs_from_name_false in Hty. split.
    + intros [what H]. exfalso. revert H.
      unfold getitem at 1.
      destruct (lookup "init_parameters" data) as [init_params|]; simpl;
        [|discriminate].
      destruct (construct new_id init_params) as [comp|e] eqn:Hc; simpl.
      2:{ intros H; injection H as ->.
          apply construct_raises in Hc as [[msg He]|[w He]]; discriminate. }
      unfold getitem at 1.
      destruct (lookup "store" data) as [store_field|]; simpl; [|discriminate].
      destruct store_field as [| | | | |store_data]; try discriminate.
      unfold getitem.
      destruct (lookup "type" store_data) as [store_type|]; simpl; [|discriminate].
      unfold registry_getitem.
      destruct store_type as [| | |name| |]; simpl; try discriminate.
      destruct (lookup name registry) as [from|]; simpl; [|discriminate].
      destruct (from (PDict store_data)) as [e|st]; simpl; [discriminate|].
      unfold set_store. destruct (existsb _ _); discriminate.
    + intros [H|(ty' & H & Hne)]; [discriminate|].
      injection H as <-. contradiction.
Qed.

(** C2, as the code has it.  For a component whose [top_k] is a
    positive integer, [from_dict (to_dict x)] succeeds with the defaults
    of [x] and no store bound when [x] records a store name or has no
    store; when [x] has a store and no name, and the registry rebuilds
    from the store's serialised form a compatible store that answers
    alike, the result has the defaults of [x] and that store bound. *)
Theorem from_dict_to_dict :
  forall (registry : Registry Document StoreExn) (new_id : Z)
         (x : MemoryRetriever Document StoreExn) (k : Z),
    self_top_k x = PInt k ->
    0 < k ->
    (truthy_name (_store_name x) = true \/ _store x = None ->
       exists y,
         from_dict registry new_id (to_dict x) = Return y
         /\ same_defaults x y
         /\ _store y = None)
    /\ (forall s store_data ty from s',
          truthy_name (_store_name x) = false ->
          _store x = Some s ->
          store_to_dict s = PDict store_data ->
          lookup "type" store_data = Some (PStr ty) ->
          lookup ty registry = Some from ->
          from (PDict store_data) = inr s' ->
          existsb (String.eqb (store_class s')) supported_stores = true ->
          same_results s s' ->
          exists y,
            from_dict registry new_id (to_dict x) = Return y
            /\ same_defaults x y
            /\ exists s'', _store y = Some s'' /\ same_results s s'').
Proof.
  intros registry new_id x k Hk Hpos.
  assert (Hinit : @construct Document StoreExn new_id
                    (PDict [ ("filters", self_filters x);
                             ("top_k", self_top_k x);
                             ("scale_score", self_scale_score x) ])
                  = Return {| obj_id := new_id;
                              self_filters := self_filters x;
                              self_top_k := self_top_k x;
                              self_scale_score := self_scale_score x;
                              _store := None;
                              _store_name := None |}).
  { unfold construct, __init__. simpl. rewrite Hk. simpl.
    destruct (Z.leb_spec k 0); [lia | reflexivity]. }
  split.
  - intros Hcase. eexists. unfold from_dict, to_dict. cbn -[construct].
    rewrite Hinit. simpl.
    destruct (truthy_name (_store_name x)) eqn:Hname.
    + destruct (_store_name x) as [name|]; [|discriminate]. simpl.
      repeat split.
    + destruct Hcase as [Hcase|Hcase]; [discriminate|].
      rewrite Hcase. simpl. repeat split.
  - intros s store_data ty from s' Hname Hs Hdata Hty Hreg Hfrom Hcompat Hsame.
    eexists. unfold from_dict, to_dict. cbn -[construct].
    rewrite Hinit, Hname, Hs, Hdata. simpl.
    unfold getitem. rewrite Hty. simpl. rewrite Hreg. simpl.
    rewrite Hfrom. simpl. unfold set_store. rewrite Hcompat. simpl.
    repeat split. exists s'. split; [reflexivity | exact Hsame].
Qed.

End Serialisation.

(** * The properties on the example store *)

(** ** How the example components come about *)

Example demo_unbound_is_constructed :
  __init__ 4096 None (Some (PInt 5)) None = Return demo_unbound.
Proof. reflexivity. Qed.

Example demo_bound_is_assigned :
  set_store demo_unbound demo_store = Return demo_bound.
Proof. reflexivity. Qed.

Example demo_run :
  run demo_bound ["PHP"; "Java"] PNone PNone PNone []
  = (Return {| documents :=
                 [ [ "PHP is a popular programming language" ];
                   [ "Javascript is a popular programming language";
                     "Java is a popular programming language" ] ] |},
     [ {| call_query := "PHP"; call_filters := PNone;
          call_top_k := PInt 5; call_scale_score := PBool true |};
       {| call_query := "Java"; call_filters := PNone;
          call_top_k := PInt 5; call_scale_score := PBool true |} ]).
Proof. reflexivity. Qed.

Example demo_run_stops_at_first_failure :
  run demo_bound ["PHP"; ""; "Java"] PNone (PInt 0) PNone []
  = (Raise (Delegated "Query should be a non-empty string"),
     [ {| call_query := "PHP"; call_filters := PNone;
          call_top_k := PInt 0; call_scale_score := PBool true |};
       {| call_query := ""; call_filters := PNone;
          call_top_k := PInt 0; call_scale_score := PBool true |} ]).
Proof. reflexivity. Qed.

Example demo_to_dict_in_pipeline :
  to_dict demo_in_pipeline
  = [ ("hash", PInt 4096);
      ("type", PStr "MemoryRetriever");
      ("store", PStr "memory");
      ("init_parameters",
        PDict [ ("filters", PNone); ("top_k", PInt 5);
                ("scale_score", PBool true) ]) ].
Proof. reflexivity. Qed.

Example demo_round_trip_without_name :
  round_trips demo_registry 8192 demo_bound.
Proof.
  eexists. split; [reflexivity|]. split; [repeat split|].
  intros s Hs. injection Hs as <-. exists demo_store.
  split; [reflexivity | intros query filters top_k scale_score; reflexivity].
Qed.

(** ** Instances of the theorems *)

Lemma run_collects_store_answers_in_order_witness :
  _store demo_bound = Some demo_store
  /\ exists out,
       fst (run demo_bound ["PHP"; "Java"] PNone PNone PNone []) = Return out
       /\ documents out
          = [ [ "PHP is a popular programming language" ];
              [ "Javascript is a popular programming language";
                "Java is a popular programming language" ] ].
Proof.
  split; [reflexivity|].
  destruct (run_collects_store_answers_in_order string string
              demo_bound demo_store ["PHP"; "Java"] PNone PNone PNone []
              [ [ "PHP is a popular programming language" ];
                [ "Javascript is a popular programming language";
                  "Java is a popular programming language" ] ]
              eq_refl)
    as (out & Hrun & Hdocs & _).
  - repeat constructor.
  - exists out. split; assumption.
Defined.

Lemma from_dict_to_dict_witness :
  self_top_k demo_bound = PInt 5
  /\ 0 < 5
  /\ exists y,
       from_dict demo_registry 8192 (to_dict demo_bound) = Return y
       /\ same_defaults demo_bound y
       /\ exists s'', _store y = Some s'' /\ same_results demo_store s''.
Proof.
  split; [reflexivity|]. split; [lia|].
  apply (proj2 (from_dict_to_dict string string demo_registry 8192 demo_bound 5
                  eq_refl ltac:(lia))
           demo_store
           [ ("type", PStr "MemoryDocumentStore"); ("init_parameters", PDict []) ]
           "MemoryDocumentStore" (fun _ => inr demo_store) demo_store).
  all: try reflexivity.
  intros query filters top_k scale_score. reflexivity.
Defined.

Lemma run_overrides_take_precedence_witness :
  _store demo_bound = Some demo_store
  /\ exists calls n,
       snd (run demo_bound ["PHP"; "Java"] PNone (PInt 2) PNone []) = [] ++ calls
       /\ map call_query calls = firstn n ["PHP"; "Java"]
       /\ forall c, In c calls ->
            call_filters c = self_filters demo_bound
            /\ call_top_k c = PInt 2
            /\ call_scale_score c = self_scale_score demo_bound.
Proof.
  split; [reflexivity|].
  destruct (run_overrides_take_precedence string string
              demo_bound demo_store ["PHP"; "Java"] PNone (PInt 2) PNone []
              eq_refl)
    as (calls & n & Hlog & Hq & _ & _ & Hsent).
  exists calls, n. repeat split; try assumption.
  all: destruct (Hsent c H) as (_ & Hf & Hk & _ & _ & Hs); auto.
  apply Hk. discriminate.
Defined.

Lemma init_validates_top_k_witness :
  -2 <= 0
  /\ (exists msg,
        @__init__ string string 4096 None (Some (PInt (-2))) (Some (PBool false))
        = Raise (ValueError msg)
        /\ msg = "top_k must be > 0, but got -2"
        /\ contains "-2" msg = true)
  /\ 0 < 5
  /\ (exists r,
        @__init__ string string 4096 None (Some (PInt 5)) (Some (PBool false))
        = Return r
        /\ self_top_k r = PInt 5).
Proof.
  split; [lia|]. split.
  - apply (proj1 (init_validates_top_k string string 4096 None
                    (Some (PBool false)) (-2))). lia.
  - split; [lia|].
    apply (proj2 (init_validates_top_k string string 4096 None
                    (Some (PBool false)) 5)). lia.
Defined.

Lemma run_without_store_fails_witness :
  _store demo_unbound = None
  /\ exists msg,
       run demo_unbound ["PHP"] PNone PNone PNone [] = (Raise (ValueError msg), [])
       /\ msg = "MemoryRetriever needs a store to run: set the store instance to the self.store attribute"
       /\ contains "set the store instance" msg = true.
Proof.
  split; [reflexivity|].
  apply (run_without_store_fails string string demo_unbound ["PHP"]
           PNone PNone PNone []).
  reflexivity.
Defined.

Lemma to_dict_store_field_witness :
  _store_name demo_in_pipeline = Some "memory"
  /\ "memory" <> ""
  /\ lookup "store" (to_dict demo_in_pipeline) = Some (PStr "memory")
  /\ truthy_name (_store_name demo_bound) = false
  /\ lookup "store" (to_dict demo_bound) = Some demo_store_data
  /\ lookup "store" (to_dict demo_unbound) = Some PNone.
Proof.
  split; [reflexivity|]. split; [discriminate|]. split.
  - apply (proj1 (to_dict_store_field string string demo_in_pipeline) "memory");
      [reflexivity | discriminate].
  - split; [reflexivity|]. split.
    + apply (proj1 (proj2 (to_dict_store_field string string demo_bound))
               demo_store); reflexivity.
    + apply (proj2 (proj2 (to_dict_store_field string string demo_unbound)));
        reflexivity.
Defined.

Lemma from_dict_type_check_witness :
  (exists what,
     from_dict demo_registry 8192 [ ("type", PStr "PromptBuilder") ]
     = Raise (ComponentDeserializationError what))
  /\ ~ (exists what,
          from_dict demo_registry 8192 (to_dict demo_bound)
          = Raise (ComponentDeserializationError what)).
Proof.
  split.
  - apply (proj2 (from_dict_type_check string string demo_registry 8192
                    [ ("type", PStr "PromptBuilder") ])).
    right. exists (PStr "PromptBuilder"). split; [reflexivity | discriminate].
  - intros H.
    apply (proj1 (from_dict_type_check string string demo_registry 8192
                    (to_dict demo_bound))) in H.
    destruct H as [H|(ty & H & Hne)]; [discriminate|].
    injection H as <-. apply Hne. reflexivity.
Defined.

Lemma init_default_filters_is_None_witness :
  @__init__ string string 4096 None None None
  = Return {| obj_id := 4096; self_filters := PNone; self_top_k := PInt 10;
              self_scale_score := PBool true; _store := None;
              _store_name := None |}
  /\ self_filters
       {| obj_id := 4096; self_filters := PNone; self_top_k := PInt 10;
          self_scale_score := PBool true; _store := @None (Store string string);
          _store_name := None |}
     = PNone.
Proof.
  split; [reflexivity|].
  apply (init_default_filters_is_None string string 4096 None None).
  reflexivity.
Defined.

Lemma run_does_not_validate_top_k_witness :
  _store demo_bound = Some demo_store
  /\ (forall msg,
        fst (run demo_bound ["PHP"; "Java"] PNone (PInt (-2)) PNone [])
        <> Raise (ValueError msg))
  /\ exists calls n,
       snd (run demo_bound ["PHP"; "Java"] PNone (PInt (-2)) PNone []) = [] ++ calls
       /\ map call_query calls = firstn n ["PHP"; "Java"]
       /\ (["PHP"; "Java"] <> [] -> calls <> [])
       /\ Forall (fun c => call_top_k c = PInt (-2)) calls.
Proof.
  split; [reflexivity|].
  destruct (run_does_not_validate_top_k string string
              demo_bound demo_store ["PHP"; "Java"] PNone PNone (-2) []
              eq_refl)
    as (Hno & _ & Hcalls & _).
  split; assumption.
Defined.

Lemma run_on_no_queries_witness :
  _store demo_bound = Some demo_store
  /\ run demo_bound [] PNone PNone PNone [] = (Return {| documents := [] |}, []).
Proof.
  split; [reflexivity|].
  apply (run_on_no_queries string string demo_bound demo_store).
  reflexivity.
Defined.

(** ** Where the code departs from the specification *)

(** C2 as stated fails: a component that was added to a pipeline has a
    store bound and a store name recorded; its serialised form carries
    the name only, and the component read back has no store. *)
Lemma round_trip_loses_named_store :
  self_top_k demo_in_pipeline = PInt 5
  /\ _store demo_in_pipeline = Some demo_store
  /\ ~ round_trips demo_registry 8192 demo_in_pipeline.
Proof.
  split; [reflexivity|]. split; [reflexivity|].
  intros (y & Hy & _ & Hstore).
  cbv in Hy. injection Hy as <-.
  destruct (Hstore demo_store eq_refl) as (s' & Hs' & _).
  discriminate Hs'.
Qed.

(** C6 as stated fails: with a store bound and a store name recorded,
    the [store] field is the name, not the store's serialised form. *)
Lemma to_dict_prefers_store_name :
  _store demo_in_pipeline = Some demo_store
  /\ lookup "store" (to_dict demo_in_pipeline) = Some (PStr "memory")
  /\ lookup "store" (to_dict demo_in_pipeline) <> Some (store_to_dict demo_store).
Proof.
  split; [reflexivity|]. split; [reflexivity|]. discriminate.
Qed.

(** C8 as stated fails: constructed with no argument at all, the
    instance keeps [None], not the empty mapping, as its filters. *)
Lemma init_default_filters_not_empty_mapping :
  exists r : MemoryRetriever string string,
    __init__ 4096 None None None = Return r
    /\ self_filters r = PNone
    /\ self_filters r <> PDict [].
Proof.
  eexists. split; [reflexivity|]. split; [reflexivity | discriminate].
Qed.

(** * Further properties of the component *)

(** ** The loop, exactly *)

Section Loop.

Variable Document : Type.
Variable StoreExn : Type.
Variable store : Store Document StoreExn.
Variables filters top_k scale_score : pyval.

(** The documents collected so far are only ever extended. *)
Lemma for_each_query_from (queries : list string) :
  forall docs log,
    for_each_query store filters top_k scale_score queries docs log
    = match for_each_query store filters top_k scale_score queries [] log with
      | (Return found, log') => (Return (docs ++ found), log')
      | (Raise e, log') => (Raise e, log')
      end.
Proof.
  induction queries as [|q queries IH]; intros docs log; simpl.
  - unfold ret. now rewrite app_nil_r.
  - unfold ebind, call_bm25.
    destruct (bm25_retrieval store q filters top_k scale_score) as [e|d]; simpl;
      [reflexivity|].
    rewrite (IH (docs ++ [d])), (IH [d]).
    destruct (for_each_query _ _ _ _ _ _ _) as [[found|e] log'];
      [|reflexivity].
    now rewrite <- app_assoc.
Qed.

Lemma for_each_query_app (first second : list string) :
  forall docs log,
    for_each_query store filters top_k scale_score (first ++ second) docs log
    = match for_each_query store filters top_k scale_score first docs log with
      | (Return found, log') =>
          for_each_query store filters top_k scale_score second found log'
      | (Raise e, log') => (Raise e, log')
      end.
Proof.
  induction first as [|q first IH]; intros docs log; simpl; [reflexivity|].
  unfold ebind, call_bm25.
  destruct (bm25_retrieval store q filters top_k scale_score) as [e|d]; simpl;
    [reflexivity | apply IH].
Qed.

(** Result and log together, when the store answers every query. *)
Lemma for_each_query_success :
  forall (queries : list string) (answers : list (list Document)),
    Forall2 (fun q d => bm25_retrieval store q filters top_k scale_score = inr d)
            queries answers ->
    forall docs log,
      for_each_query store filters top_k scale_score queries docs log
      = (Return (docs ++ answers),
         log ++ map (call_with filters top_k scale_score) queries).
Proof.
  induction 1 as [|q d queries answers Hq _ IH]; intros docs log; simpl.
  - unfold ret. now rewrite !app_nil_r.
  - unfold ebind, call_bm25. rewrite Hq. simpl.
    rewrite IH, <- !app_assoc. reflexivity.
Qed.

(** What a normal return of the loop tells about the store. *)
Lemma for_each_query_returned :
  forall (queries : list string) log found log',
    for_each_query store filters top_k scale_score queries [] log
    = (Return found, log') ->
    Forall2 (fun q d => bm25_retrieval store q filters top_k scale_score = inr d)
            queries found
    /\ log' = log ++ map (call_with filters top_k scale_score) queries.
Proof.
  induction queries as [|q queries IH]; intros log found log'; simpl.
  - unfold ret. intros H; injection H as <- <-.
    split; [constructor | now rewrite app_nil_r].
  - unfold ebind, call_bm25.
    destruct (bm25_retrieval store q filters top_k scale_score) as [e|d] eqn:Hq;
      simpl; [discriminate|].
    rewrite for_each_query_from.
    destruct (for_each_query _ _ _ _ _ _ _) as [[rest|e] log''] eqn:Hrest;
      [|discriminate].
    intros H; injection H as <- <-.
    destruct (IH _ _ _ Hrest) as [Hall ->].
    split; [constructor; assumption|].
    rewrite <- app_assoc. reflexivity.
Qed.

End Loop.

(** ** [run], further *)

Section RunFurther.

Variable Document : Type.
Variable StoreExn : Type.

(** X1.  Whatever record [run] returns, its [documents] are the store's
    answers: one per query, the i-th being what the store returned for
    the i-th query under the effective parameters, and the store was
    called exactly once per query, in the order of the queries. *)
Theorem run_returns_only_store_answers :
  forall (self : MemoryRetriever Document StoreExn) (store : Store Document StoreExn)
         (queries : list string) (filters top_k scale_score : pyval)
         (log log' : list bm25_call) (out : run_output Document),
    _store self = Some store ->
    run self queries filters top_k scale_score log = (Return out, log') ->
    Forall2 (fun q d =>
               bm25_retrieval store q
                 (effective filters (self_filters self))
                 (effective top_k (self_top_k self))
                 (effective scale_score (self_scale_score self))
               = inr d)
            queries (documents out)
    /\ log' = log ++ map (call_with (effective filters (self_filters self))
                                    (effective top_k (self_top_k self))
                                    (effective scale_score (self_scale_score self)))
                         queries.
Proof.
  intros self store queries filters top_k scale_score log log' out Hbound.
  unfold run. rewrite Hbound. unfold ebind, effective.
  destruct (for_each_query _ _ _ _ _ _ _) as [[found|e] log''] eqn:Hloop;
    [|discriminate].
  unfold ret. intros H; injection H as <- <-.
  exact (for_each_query_returned _ _ _ _ _ _ _ _ _ _ Hloop).
Qed.

(** X2.  A query that the store refuses ends the batch: [run] raises
    the store's exception, returns no documents for the queries answered
    before it, and the queries after it never reach the store. *)
Theorem run_aborts_at_first_failure :
  forall (self : MemoryRetriever Document StoreExn) (store : Store Document StoreExn)
         (answered rest : list string) (refused : string)
         (answers : list (list Document)) (e : StoreExn)
         (filters top_k scale_score : pyval) (log : list bm25_call),
    _store self = Some store ->
    Forall2 (fun q d =>
               bm25_retrieval store q
                 (effective filters (self_filters self))
                 (effective top_k (self_top_k self))
                 (effective scale_score (self_scale_score self))
               = inr d)
            answered answers ->
    bm25_retrieval store refused
      (effective filters (self_filters self))
      (effective top_k (self_top_k self))
      (effective scale_score (self_scale_score self))
    = inl e ->
    run self (answered ++ refused :: rest) filters top_k scale_score log
    = (Raise (Delegated e),
       log ++ map (call_with (effective filters (self_filters self))
                             (effective top_k (self_top_k self))
                             (effective scale_score (self_scale_score self)))
                  (answered ++ [refused])).
Proof.
  intros self store answered rest refused answers e filters top_k scale_score log
         Hbound Hans Hrefused.
  unfold run. rewrite Hbound. unfold ebind. fold (effective filters (self_filters self)).
  fold (effective top_k (self_top_k self)).
  fold (effective scale_score (self_scale_score self)).
  rewrite for_each_query_app.
  rewrite (for_each_query_success _ _ _ _ _ _ _ _ Hans).
  simpl. unfold ebind, call_bm25. rewrite Hrefused. simpl.
  rewrite map_app, <- app_assoc. reflexivity.
Qed.

(** X3.  [run] on a concatenated batch is [run] on the first part
    followed by [run] on the second: the documents are concatenated, the
    log of the first run is where the second starts, and a failure in
    the first part is the failure of the whole. *)
Theorem run_app :
  forall (self : MemoryRetriever Document StoreExn)
         (first second : list string) (filters top_k scale_score : pyval)
         (log : list bm25_call),
    run self (first ++ second) filters top_k scale_score log
    = match run self first filters top_k scale_score log with
      | (Return out1, log1) =>
          match run self second filters top_k scale_score log1 with
          | (Return out2, log2) =>
              (Return {| documents := documents out1 ++ documents out2 |}, log2)
          | (Raise e, log2) => (Raise e, log2)
          end
      | (Raise e, log1) => (Raise e, log1)
      end.
Proof.
  intros self first second filters top_k scale_score log.
  unfold run. destruct (_store self) as [store|]; [|reflexivity].
  unfold ebind. rewrite for_each_query_app.
  destruct (for_each_query _ _ _ _ first [] log) as [[found|e] log1];
    [|reflexivity].
  unfold ret. simpl. rewrite for_each_query_from.
  destruct (for_each_query _ _ _ _ second [] log1) as [[found2|e] log2];
    reflexivity.
Qed.

(** X4.  A component as the constructor returns it cannot run: whatever
    the arguments of the constructor and of the call, [run] raises the
    [ValueError] that asks for a store, and no retrieval is made. *)
Theorem run_after_init_fails :
  forall (self_id : Z) (init_filters init_top_k init_scale_score : option pyval)
         (self : MemoryRetriever Document StoreExn)
         (queries : list string) (filters top_k scale_score : pyval)
         (log : list bm25_call),
    __init__ self_id init_filters init_top_k init_scale_score = Return self ->
    run self queries filters top_k scale_score log
    = (Raise (ValueError
         "MemoryRetriever needs a store to run: set the store instance to the self.store attribute"),
       log).
Proof.
  intros self_id init_filters init_top_k init_scale_score self
         queries filters top_k scale_score log.
  unfold __init__.
  destruct (as_number _) as [n|]; [|discriminate].
  destruct (num_value n <=? 0); [discriminate|].
  intros H; injection H as <-. reflexivity.
Qed.

(** X5.  What the constructor was given is what the store receives: for
    a component with the defaults of a constructed one and a store
    bound, a [run] without overrides sends, with every query, the
    constructor's [filters] ([None] when left out), [top_k] (10 when
    left out) and [scale_score] ([True] when left out). *)
Theorem run_sends_constructor_arguments :
  forall (self_id : Z) (init_filters init_top_k init_scale_score : option pyval)
         (built self : MemoryRetriever Document StoreExn)
         (store : Store Document StoreExn)
         (queries : list string) (log : list bm25_call),
    __init__ self_id init_filters init_top_k init_scale_score = Return built ->
    same_defaults built self ->
    _store self = Some store ->
    exists n,
      snd (run self queries PNone PNone PNone log)
      = log ++ map (call_with (or_default PNone init_filters)
                              (or_default (PInt 10) init_top_k)
                              (or_default (PBool true) init_scale_score))
                   (firstn n queries)
      /\ (queries <> [] -> (0 < n)%nat)
      /\ (forall out, fst (run self queries PNone PNone PNone log) = Return out ->
                      n = List.length queries).
Proof.
  intros self_id init_filters init_top_k init_scale_score built self store
         queries log Hinit (Hf & Hk & Hs) Hbound.
  assert (Hbuilt : self_filters built = or_default PNone init_filters
                   /\ self_top_k built = or_default (PInt 10) init_top_k
                   /\ self_scale_score built = or_default (PBool true) init_scale_score).
  { revert Hinit. unfold __init__.
    destruct (as_number _) as [m|]; [|discriminate].
    destruct (num_value m <=? 0); [discriminate|].
    intros H; injection H as <-.
    destruct init_filters, init_top_k, init_scale_score; repeat split. }
  destruct Hbuilt as (Hf' & Hk' & Hs').
  unfold run. rewrite Hbound. simpl. rewrite <- Hf, <- Hk, <- Hs, Hf', Hk', Hs'.
  unfold ebind.
  generalize (or_default PNone init_filters) (or_default (PInt 10) init_top_k)
             (or_default (PBool true) init_scale_score).
  intros f k s. clear.
  generalize (@nil (list Document)) as docs. revert log.
  induction queries as [|q queries IH]; intros log docs.
  - exists 0%nat. simpl. rewrite app_nil_r. repeat split; congruence.
  - simpl. unfold ebind, call_bm25.
    destruct (bm25_retrieval store q f k s) as [e|d]; simpl.
    + exists 1%nat. simpl. repeat split; [lia | discriminate].
    + destruct (IH (log ++ [call_with f k s q]) (docs ++ [d])) as (n & Hlog & _ & Hn).
      exists (S n). unfold call_with in *.
      destruct (for_each_query _ _ _ _ _ _ _) as [[found|e] log']; simpl in *;
        subst log'; rewrite <- app_assoc; repeat split; try lia;
        intros out Hout; f_equal; eapply Hn; eauto.
Qed.

End RunFurther.

(** ** Reading a component back, further *)

Section FromDictFurther.

Variable Document : Type.
Variable StoreExn : Type.

Lemma find_unknown_keyword (kwargs : pydict) :
  find (fun kv => negb (existsb (String.eqb (fst kv)) init_keywords)) kwargs = None
  <-> only_init_keywords kwargs = true.
Proof.
  unfold only_init_keywords.
  induction kwargs as [|kv kwargs IH]; cbn [find forallb]; [tauto|].
  destruct (existsb (String.eqb (fst kv)) init_keywords); cbn [negb andb];
    [exact IH | split; discriminate].
Qed.

(** Keyword binding followed by the constructor, when both accept. *)
Lemma construct_accepts (new_id : Z) (kwargs : pydict) :
  only_init_keywords kwargs = true ->
  top_k_accepted kwargs = true ->
  @construct Document StoreExn new_id (PDict kwargs)
  = Return {| obj_id := new_id;
              self_filters := or_default PNone (lookup "filters" kwargs);
              self_top_k := or_default (PInt 10) (lookup "top_k" kwargs);
              self_scale_score := or_default (PBool true) (lookup "scale_score" kwargs);
              _store := None;
              _store_name := None |}.
Proof.
  intros Hkeys Htop. unfold construct.
  apply find_unknown_keyword in Hkeys. rewrite Hkeys.
  unfold __init__, top_k_accepted, or_default in *.
  destruct (as_number _) as [n|]; [|discriminate].
  destruct (num_value n <=? 0); [discriminate | reflexivity].
Qed.


(** X6.  [from_dict] reads the entries [type], [init_parameters] and
    [store] and nothing else: two records that agree on these three give
    the same component or the same exception, whatever their [hash],
    their other entries and the order of their entries. *)
Theorem from_dict_reads_three_entries :
  forall (registry : Registry Document StoreExn) (new_id : Z) (data data' : pydict),
    lookup "type" data = lookup "type" data' ->
    lookup "init_parameters" data = lookup "init_parameters" data' ->
    lookup "store" data = lookup "store" data' ->
    from_dict registry new_id data = from_dict registry new_id data'.
Proof.
  intros registry new_id data data' Hty Hinit Hstore.
  unfold from_dict, getitem. now rewrite Hty, Hinit, Hstore.
Qed.

(** X7.  A record of the right type that lacks [init_parameters] is
    refused with [KeyError('init_parameters')]; one whose parameters the
    constructor accepts but that lacks [store] is refused with
    [KeyError('store')]. *)
Theorem from_dict_missing_entry :
  forall (registry : Registry Document StoreExn) (new_id : Z) (data : pydict),
    lookup "type" data = Some (PStr class_name) ->
    (lookup "init_parameters" data = None ->
       from_dict registry new_id data = Raise (KeyError (PStr "init_parameters")))
    /\ (forall kwargs,
          lookup "init_parameters" data = Some (PDict kwargs) ->
          only_init_keywords kwargs = true ->
          top_k_accepted kwargs = true ->
          lookup "store" data = None ->
          from_dict registry new_id data = Raise (KeyError (PStr "store"))).
Proof.
  intros registry new_id data Hty. unfold from_dict, getitem. rewrite Hty.
  cbn -[construct]. split.
  - intros ->. reflexivity.
  - intros kwargs -> Hkeys Htop ->. cbn -[construct].
    now rewrite (construct_accepts _ _ Hkeys Htop).
Qed.

(** X8.  The constructor's check of [top_k] also guards reading back:
    a record of the right type whose parameters carry an integer
    [top_k <= 0] is refused with the constructor's [ValueError], before
    the [store] entry or the registry is looked at. *)
Theorem from_dict_validates_top_k :
  forall (registry : Registry Document StoreExn) (new_id : Z) (data kwargs : pydict)
         (k : Z),
    lookup "type" data = Some (PStr class_name) ->
    lookup "init_parameters" data = Some (PDict kwargs) ->
    only_init_keywords kwargs = true ->
    lookup "top_k" kwargs = Some (PInt k) ->
    k <= 0 ->
    from_dict registry new_id data
    = Raise (ValueError ("top_k must be > 0, but got " ++ py_str_int k)%string).
Proof.
  intros registry new_id data kwargs k Hty Hinit Hkeys Htop Hk.
  unfold from_dict, getitem. rewrite Hty, Hinit. cbn -[construct].
  unfold construct.
  apply find_unknown_keyword in Hkeys. rewrite Hkeys.
  unfold __init__. rewrite Htop. simpl.
  destruct (Z.leb_spec k 0); [reflexivity | lia].
Qed.

(** X9.  A record of the right type whose parameters name a keyword
    that the constructor does not take is refused with a [TypeError]
    about such a keyword. *)
Theorem from_dict_rejects_unknown_keyword :
  forall (registry : Registry Document StoreExn) (new_id : Z) (data kwargs : pydict),
    lookup "type" data = Some (PStr class_name) ->
    lookup "init_parameters" data = Some (PDict kwargs) ->
    only_init_keywords kwargs = false ->
    exists k,
      from_dict registry new_id data = Raise (TypeError (BadKeyword k))
      /\ In k (map fst kwargs)
      /\ ~ In k init_keywords.
Proof.
  intros registry new_id data kwargs Hty Hinit Hkeys.
  unfold from_dict, getitem. rewrite Hty, Hinit. cbn -[construct].
  unfold construct.
  destruct (find (fun kv => negb (existsb (String.eqb (fst kv)) init_keywords))
                 kwargs) as [[k v]|] eqn:Hfind.
  - exists k. split; [reflexivity|].
    apply find_some in Hfind as [Hin Hnot]. split.
    + apply in_map_iff. exists (k, v). auto.
    + intros Hk. apply negb_true_iff in Hnot.
      assert (existsb (String.eqb k) init_keywords = true) as Hex.
      { apply existsb_exists. exists k. split; [exact Hk | apply String.eqb_refl]. }
      cbn [fst] in Hnot. congruence.
  - apply find_unknown_keyword in Hfind. congruence.
Qed.

(** X10.  Reading a record and writing the component out again gives
    the record in normal form: [hash] is the identity of the new object,
    the parameters left out appear with the defaults of the constructor
    ([None], 10, [True]), and a [store] entry that is not a nested
    record, a store name included, comes out as [None]. *)
Theorem to_dict_after_from_dict :
  forall (registry : Registry Document StoreExn) (new_id : Z) (data kwargs : pydict)
         (store_field : pyval),
    lookup "type" data = Some (PStr class_name) ->
    lookup "init_parameters" data = Some (PDict kwargs) ->
    only_init_keywords kwargs = true ->
    top_k_accepted kwargs = true ->
    lookup "store" data = Some store_field ->
    is_dict store_field = false ->
    exists y,
      from_dict registry new_id data = Return y
      /\ to_dict y
         = [ ("hash", PInt new_id);
             ("type", PStr class_name);
             ("store", PNone);
             ("init_parameters",
               PDict [ ("filters", or_default PNone (lookup "filters" kwargs));
                       ("top_k", or_default (PInt 10) (lookup "top_k" kwargs));
                       ("scale_score",
                         or_default (PBool true) (lookup "scale_score" kwargs)) ]) ].
Proof.
  intros registry new_id data kwargs store_field Hty Hinit Hkeys Htop Hstore Hnodict.
  unfold from_dict, getitem. rewrite Hty, Hinit, Hstore. cbn -[construct].
  rewrite (construct_accepts _ _ Hkeys Htop). simpl.
  destruct store_field; try discriminate; eexists; split; reflexivity.
Qed.

(** X11.  For a component that records a store name or has no store,
    reading back what [to_dict] wrote is the constructor applied to the
    three attributes as they are now: the same component under the new
    identity, or the same exception when an attribute has been changed
    to something the constructor refuses. *)
Theorem from_dict_to_dict_is_init :
  forall (registry : Registry Document StoreExn) (new_id : Z)
         (x : MemoryRetriever Document StoreExn),
    truthy_name (_store_name x) = true \/ _store x = None ->
    from_dict registry new_id (to_dict x)
    = __init__ new_id (Some (self_filters x)) (Some (self_top_k x))
               (Some (self_scale_score x)).
Proof.
  intros registry new_id x Hcase.
  unfold from_dict, to_dict, getitem, construct. cbn -[__init__].
  destruct (__init__ _ _ _ _) as [comp|e]; simpl; [|reflexivity].
  destruct (truthy_name (_store_name x)) eqn:Hname.
  - destruct (_store_name x); [reflexivity | discriminate].
  - destruct Hcase as [Hcase|Hcase]; [discriminate|]. now rewrite Hcase.
Qed.


(** X13.  With a nested [store] record, after the constructor has
    accepted the parameters: a record without [type] is refused with
    [KeyError('type')], a type name that the registry does not know with
    a [KeyError] of that name, and what the registry entry raises on the
    record is raised by [from_dict] unchanged. *)
Theorem from_dict_store_errors :
  forall (registry : Registry Document StoreExn) (new_id : Z)
         (data kwargs store_data : pydict),
    lookup "type" data = Some (PStr class_name) ->
    lookup "init_parameters" data = Some (PDict kwargs) ->
    only_init_keywords kwargs = true ->
    top_k_accepted kwargs = true ->
    lookup "store" data = Some (PDict store_data) ->
    (lookup "type" store_data = None ->
       from_dict registry new_id data = Raise (KeyError (PStr "type")))
    /\ (forall ty,
          lookup "type" store_data = Some (PStr ty) ->
          lookup ty registry = None ->
          from_dict registry new_id data = Raise (KeyError (PStr ty)))
    /\ (forall ty from e,
          lookup "type" store_data = Some (PStr ty) ->
          lookup ty registry = Some from ->
          from (PDict store_data) = inl e ->
          from_dict registry new_id data = Raise (Delegated e)).
Proof.
  intros registry new_id data kwargs store_data Hty Hinit Hkeys Htop Hstore.
  unfold from_dict, getitem. rewrite Hty, Hinit, Hstore. cbn -[construct].
  rewrite (construct_accepts _ _ Hkeys Htop). simpl.
  repeat split.
  - intros ->. reflexivity.
  - intros ty -> Hreg. simpl. now rewrite Hreg.
  - intros ty from e -> Hreg Hfrom. simpl. rewrite Hreg. simpl. now rewrite Hfrom.
Qed.

End FromDictFurther.

(** ** Writing out and reading back a new component *)

Section FreshRoundTrip.

Variable Document : Type.
Variable StoreExn : Type.

(** X14.  For a component as the constructor returns it, whatever the
    arguments it accepted, reading back what [to_dict] wrote under the
    same identity gives that very component: every attribute is
    restored as it was and no store or store name appears. *)
Theorem from_dict_to_dict_after_init :
  forall (registry : Registry Document StoreExn) (self_id : Z)
         (filters top_k scale_score : option pyval)
         (x : MemoryRetriever Document StoreExn),
    __init__ self_id filters top_k scale_score = Return x ->
    from_dict registry self_id (to_dict x) = Return x.
Proof.
  intros registry self_id filters top_k scale_score x.
  unfold __init__ at 1. cbv zeta.
  destruct (as_number _) as [n|] eqn:Hn; [|discriminate].
  destruct (num_value n <=? 0) eqn:Hle; [discriminate|].
  intros H; injection H as <-.
  unfold from_dict, to_dict, getitem, construct. cbn -[__init__].
  unfold __init__. cbv zeta. rewrite Hn, Hle. reflexivity.
Qed.

End FreshRoundTrip.

(** ** Instances of the further properties *)

Lemma run_returns_only_store_answers_witness :
  _store demo_bound = Some demo_store
  /\ Forall2 (fun q d => demo_retrieval q PNone (PInt 5) (PBool true) = inr d)
             ["PHP"; "Java"]
             [ [ "PHP is a popular programming language" ];
               [ "Javascript is a popular programming language";
                 "Java is a popular programming language" ] ].
Proof.
  split; [reflexivity|].
  apply (proj1 (run_returns_only_store_answers string string
                  demo_bound demo_store ["PHP"; "Java"] PNone PNone PNone []
                  [ call_with PNone (PInt 5) (PBool true) "PHP";
                    call_with PNone (PInt 5) (PBool true) "Java" ]
                  {| documents :=
                       [ [ "PHP is a popular programming language" ];
                         [ "Javascript is a popular programming language";
                           "Java is a popular programming language" ] ] |}
                  eq_refl eq_refl)).
Defined.

Lemma run_aborts_at_first_failure_witness :
  _store demo_bound = Some demo_store
  /\ run demo_bound (["PHP"] ++ "" :: ["Java"]) PNone (PInt 1) PNone []
     = (Raise (Delegated "Query should be a non-empty string"),
        [] ++ map (call_with PNone (PInt 1) (PBool true)) (["PHP"] ++ [""])).
Proof.
  split; [reflexivity|].
  apply (run_aborts_at_first_failure string string demo_bound demo_store
           ["PHP"] ["Java"] "" [ [ "PHP is a popular programming language" ] ]
           "Query should be a non-empty string" PNone (PInt 1) PNone []).
  - reflexivity.
  - repeat constructor.
  - reflexivity.
Defined.

Lemma run_after_init_fails_witness :
  @__init__ string string 4096 None (Some (PInt 5)) None = Return demo_unbound
  /\ run demo_unbound ["PHP"] PNone PNone PNone []
     = (Raise (ValueError
          "MemoryRetriever needs a store to run: set the store instance to the self.store attribute"),
        []).
Proof.
  split; [reflexivity|].
  apply (run_after_init_fails string string 4096 None (Some (PInt 5)) None
           demo_unbound ["PHP"] PNone PNone PNone []).
  reflexivity.
Defined.

Lemma run_sends_constructor_arguments_witness :
  @__init__ string string 4096 None (Some (PInt 5)) None = Return demo_unbound
  /\ same_defaults demo_unbound demo_bound
  /\ _store demo_bound = Some demo_store
  /\ exists n,
       snd (run demo_bound ["PHP"; "Java"] PNone PNone PNone [])
       = [] ++ map (call_with PNone (PInt 5) (PBool true)) (firstn n ["PHP"; "Java"])
       /\ (["PHP"; "Java"] <> [] -> (0 < n)%nat)
       /\ (forall out,
             fst (run demo_bound ["PHP"; "Java"] PNone PNone PNone []) = Return out ->
             n = 2%nat).
Proof.
  split; [reflexivity|]. split; [repeat split|]. split; [reflexivity|].
  apply (run_sends_constructor_arguments string string 4096 None (Some (PInt 5)) None
           demo_unbound demo_bound demo_store ["PHP"; "Java"] []).
  - reflexivity.
  - repeat split.
  - reflexivity.
Defined.

Lemma from_dict_reads_three_entries_witness :
  from_dict demo_registry 8192 (to_dict demo_unbound)
  = from_dict demo_registry 8192
      [ ("store", PNone);
        ("comment", PStr "written by hand");
        ("init_parameters",
          PDict [ ("filters", PNone); ("top_k", PInt 5);
                  ("scale_score", PBool true) ]);
        ("type", PStr "MemoryRetriever") ].
Proof.
  apply (from_dict_reads_three_entries string string demo_registry 8192);
    reflexivity.
Defined.

Lemma from_dict_missing_entry_witness :
  from_dict demo_registry 8192 [ ("type", PStr "MemoryRetriever") ]
  = Raise (KeyError (PStr "init_parameters"))
  /\ from_dict demo_registry 8192
       [ ("type", PStr "MemoryRetriever"); ("init_parameters", PDict []) ]
     = Raise (KeyError (PStr "store")).
Proof.
  split.
  - apply (proj1 (from_dict_missing_entry string string demo_registry 8192
                    [ ("type", PStr "MemoryRetriever") ] eq_refl)).
    reflexivity.
  - apply (proj2 (from_dict_missing_entry string string demo_registry 8192
                    [ ("type", PStr "MemoryRetriever");
                      ("init_parameters", PDict []) ] eq_refl)
             []); reflexivity.
Defined.

Lemma from_dict_validates_top_k_witness :
  0 <= 0
  /\ from_dict demo_registry 8192
       [ ("type", PStr "MemoryRetriever");
         ("init_parameters", PDict [ ("top_k", PInt 0) ]) ]
     = Raise (ValueError "top_k must be > 0, but got 0").
Proof.
  split; [lia|].
  apply (from_dict_validates_top_k string string demo_registry 8192
           [ ("type", PStr "MemoryRetriever");
             ("init_parameters", PDict [ ("top_k", PInt 0) ]) ]
           [ ("top_k", PInt 0) ] 0); first [reflexivity | lia].
Defined.

Lemma from_dict_rejects_unknown_keyword_witness :
  exists k,
    from_dict demo_registry 8192
      [ ("type", PStr "MemoryRetriever");
        ("init_parameters",
          PDict [ ("top_k", PInt 5); ("document_store_name", PStr "memory") ]);
        ("store", PNone) ]
    = Raise (TypeError (BadKeyword k))
    /\ In k (map fst [ ("top_k", PInt 5); ("document_store_name", PStr "memory") ])
    /\ ~ In k init_keywords.
Proof.
  apply (from_dict_rejects_unknown_keyword string string demo_registry 8192
           [ ("type", PStr "MemoryRetriever");
             ("init_parameters",
               PDict [ ("top_k", PInt 5); ("document_store_name", PStr "memory") ]);
             ("store", PNone) ]
           [ ("top_k", PInt 5); ("document_store_name", PStr "memory") ]);
    reflexivity.
Defined.

Lemma to_dict_after_from_dict_witness :
  exists y,
    from_dict demo_registry 8192
      [ ("type", PStr "MemoryRetriever");
        ("init_parameters", PDict [ ("top_k", PInt 3) ]);
        ("store", PStr "memory") ]
    = Return y
    /\ to_dict y
       = [ ("hash", PInt 8192);
           ("type", PStr "MemoryRetriever");
           ("store", PNone);
           ("init_parameters",
             PDict [ ("filters", PNone); ("top_k", PInt 3);
                     ("scale_score", PBool true) ]) ].
Proof.
  apply (to_dict_after_from_dict string string demo_registry 8192
           [ ("type", PStr "MemoryRetriever");
             ("init_parameters", PDict [ ("top_k", PInt 3) ]);
             ("store", PStr "memory") ]
           [ ("top_k", PInt 3) ] (PStr "memory"));
    reflexivity.
Defined.

Lemma from_dict_to_dict_is_init_witness :
  truthy_name (_store_name demo_in_pipeline) = true
  /\ from_dict demo_registry 8192 (to_dict demo_in_pipeline)
     = __init__ 8192 (Some PNone) (Some (PInt 5)) (Some (PBool true)).
Proof.
  split; [reflexivity|].
  apply (from_dict_to_dict_is_init string string demo_registry 8192
           demo_in_pipeline).
  left. reflexivity.
Defined.


Lemma from_dict_store_errors_witness :
  from_dict demo_registry 8192
    [ ("type", PStr "MemoryRetriever"); ("init_parameters", PDict []);
      ("store", PDict [ ("type", PStr "ElasticStore") ]) ]
  = Raise (KeyError (PStr "ElasticStore"))
  /\ from_dict broken_registry 8192 (to_dict demo_bound)
     = Raise (Delegated "Missing 'init_parameters' in store data").
Proof.
  split.
  - apply (proj1 (proj2 (from_dict_store_errors string string demo_registry 8192
                           [ ("type", PStr "MemoryRetriever");
                             ("init_parameters", PDict []);
                             ("store", PDict [ ("type", PStr "ElasticStore") ]) ]
                           [] [ ("type", PStr "ElasticStore") ]
                           eq_refl eq_refl eq_refl eq_refl eq_refl))
             "ElasticStore"); reflexivity.
  - apply (proj2 (proj2 (from_dict_store_errors string string broken_registry 8192
                           (to_dict demo_bound)
                           [ ("filters", PNone); ("top_k", PInt 5);
                             ("scale_score", PBool true) ]
                           [ ("type", PStr "MemoryDocumentStore");
                             ("init_parameters", PDict []) ]
                           eq_refl eq_refl eq_refl eq_refl eq_refl))
             "MemoryDocumentStore"
             (fun _ => inl "Missing 'init_parameters' in store data")
             "Missing 'init_parameters' in store data"); reflexivity.
Defined.

Lemma from_dict_to_dict_after_init_witness :
  @__init__ string string 4096 None (Some (PInt 5)) None = Return demo_unbound
  /\ from_dict demo_registry 4096 (to_dict demo_unbound) = Return demo_unbound.
Proof.
  split; [reflexivity|].
  apply (from_dict_to_dict_after_init string string demo_registry 4096
           None (Some (PInt 5)) None demo_unbound).
  reflexivity.
Defined.
